(** * pynumaflow.function.server: the user-defined-function gRPC servicer

    A shallow embedding of [src/pynumaflow/function/server.py] and the
    properties of its three RPC handlers ([MapFn], [ReduceFn], [IsReady]),
    of the server built by [__serve] and of the lifecycle of [start]. *)

From Stdlib Require Import ZArith String.
From stdpp Require Import base option list strings.

Local Open Scope Z_scope.
Local Open Scope string_scope.
Local Open Scope list_scope.

(** ** Python values used by the module *)

Definition bytes := list Byte.byte.

(** The part of Python's exception class tree the module can meet, with
    user-defined classes deriving from any class of the tree. *)
Inductive exc_class : Type :=
| BaseException
| SystemExit
| KeyboardInterrupt
| GeneratorExit
| Exception
| ArithmeticError
| OverflowError
| RuntimeError
| NotImplementedError
| TypeError
| ValueError
| UserClass (name : string) (base : exc_class).

#[global] Instance exc_class_eq_dec : EqDecision exc_class.
Proof. solve_decision. Defined.

(** Method resolution order of a class: the class, then its ancestors. *)
Fixpoint mro (c : exc_class) : list exc_class :=
  c :: match c with
       | BaseException => []
       | SystemExit | KeyboardInterrupt | GeneratorExit | Exception =>
           [BaseException]
       | ArithmeticError | RuntimeError | TypeError | ValueError =>
           [Exception; BaseException]
       | OverflowError => [ArithmeticError; Exception; BaseException]
       | NotImplementedError => [RuntimeError; Exception; BaseException]
       | UserClass _ base => mro base
       end.

Definition issubclass (c d : exc_class) : bool := bool_decide (d ∈ mro c).

(** An exception object: its class and the message it was built with. *)
Record PyExc : Type := mkExc { exc_type : exc_class; exc_args : string }.

#[global] Instance PyExc_eq_dec : EqDecision PyExc.
Proof. solve_decision. Defined.

Definition isinstance (e : PyExc) (c : exc_class) : bool :=
  issubclass (exc_type e) c.

(** The outcome of evaluating a Python expression: a value or a raised
    exception. *)
Inductive result (A : Type) : Type :=
| Return (a : A)
| Raise (e : PyExc).
Arguments Return {A} a.
Arguments Raise {A} e.

Inductive NoneType : Type := PyNone.

(** A naive [datetime.datetime], as its offset from the epoch in
    microseconds. *)
Record datetime : Type := mkDatetime { microseconds_since_epoch : Z }.

(** ** google.protobuf and grpc *)

Record Timestamp : Type := mkTimestamp { seconds : Z; nanos : Z }.

Inductive StatusCode : Type :=
| OK | CANCELLED | UNKNOWN | INVALID_ARGUMENT | DEADLINE_EXCEEDED
| NOT_FOUND | ALREADY_EXISTS | PERMISSION_DENIED | RESOURCE_EXHAUSTED
| FAILED_PRECONDITION | ABORTED | OUT_OF_RANGE | UNIMPLEMENTED
| INTERNAL | UNAVAILABLE | DATA_LOSS | UNAUTHENTICATED.

(** The call context: the metadata the client sent, in transport order, and
    the status code and details a handler may set ([None] until set). *)
Record ServicerContext : Type := mkContext {
  invocation_metadata : list (string * string);
  code : option StatusCode;
  details : option string
}.

(** ** logging *)

Inductive LogLevel : Type := DEBUG | INFO | WARNING | ERROR | CRITICAL.

Inductive LogArg : Type :=
| ArgStr (s : string)
| ArgExc (e : PyExc).

Record LogRecord : Type := mkLogRecord {
  levelname : LogLevel;
  msg : string;
  args : list LogArg;
  exc_info : bool
}.

(** ** pynumaflow.function.generated.udfunction_pb2: the wire messages *)

Module udfunction_pb2.

Module Datum.
(** Modelled from the spec: the generated message class [Datum], with the
    fields the servicer reads and writes.  [event_time] and [watermark]
    hold the timestamp inside the wrapper message
    ([request.event_time.event_time], [request.watermark.watermark]); an
    unset field reads as the default timestamp. *)
Record t : Type := mk {
  key : string;
  value : bytes;
  event_time : Timestamp;
  watermark : Timestamp
}.
End Datum.

Module DatumList.
(** Modelled from the spec: the generated message class [DatumList], an
    ordered sequence of elements. *)
Record t : Type := mk { elements : list Datum.t }.
End DatumList.

Module ReadyResponse.
(** Modelled from the spec: the generated message class [ReadyResponse]. *)
Record t : Type := mk { ready : bool }.
End ReadyResponse.

(** [udfunction_pb2.Datum(key=k, value=v)]: the other fields stay unset. *)
Definition new_Datum (k : string) (v : bytes) : Datum.t :=
  Datum.mk k v (mkTimestamp 0 0) (mkTimestamp 0 0).

End udfunction_pb2.

(** ** pynumaflow.function: the data classes of the callback contract *)

Module Datum.
(** Modelled from the spec: the class [Datum] of [pynumaflow.function], a
    plain record of the payload and its two points in time. *)
Record t : Type := mk {
  value : bytes;
  event_time : datetime;
  watermark : datetime
}.
End Datum.

Module Message.
(** Modelled from the spec: the class [Message] of [pynumaflow.function],
    an output message with its routing key and payload. *)
Record t : Type := mk { key : string; value : bytes }.
End Message.

Module Messages.
(** Modelled from the spec: the class [Messages] of [pynumaflow.function],
    an ordered collection of messages: create empty, append one, read all
    in insertion order. *)
Record t : Type := mk { _messages : list Message.t }.

Definition new : t := mk [].

Definition append (self : t) (message : Message.t) : t :=
  mk (_messages self ++ [message]).

Definition items (self : t) : list Message.t := _messages self.

(** Modelled from the spec: the class method [Messages.as_forward_all] of
    [pynumaflow.function], which is not part of the sources at hand.  The
    servicer calls it with [None] only, and the spec describes what it gets
    back as a sentinel result equivalent to zero output messages. *)
Definition as_forward_all (json_data : NoneType) : t := new.
End Messages.

(** The signature of the user's map handler; it may raise. *)
Definition UDFMapCallable : Type := string → Datum.t → result Messages.t.

(** ** What the module imports and does not define

    The constants of [pynumaflow._constants] and protobuf's
    [Timestamp.ToDatetime], which raises on a timestamp outside the range of
    [datetime]. *)
Class Runtime : Type := {
  FUNCTION_SOCK_PATH : string;
  DATUM_KEY : string;
  MAX_MESSAGE_SIZE : Z;
  ToDatetime : Timestamp → result datetime
}.

(** ** The state a handler runs in

    The mutable objects a handler can reach: the call context, the request
    stream of a client-streaming call (empty for a unary call) and the
    records emitted on the module logger.  [handler_calls] is a ghost trace:
    the arguments of every call of the map handler, in call order. *)
Record RpcState : Type := mkState {
  context : ServicerContext;
  request_iterator : list udfunction_pb2.Datum.t;
  _LOGGER : list LogRecord;
  handler_calls : list (string * Datum.t)
}.

(** Statements of a handler: state passing with exceptions; the state
    reached when an exception is raised is kept. *)
Definition Py (A : Type) : Type := RpcState → result A * RpcState.

#[global] Instance Py_ret : MRet Py := λ A a s, (Return a, s).

#[global] Instance Py_bind : MBind Py := λ A B f m s,
  match m s with
  | (Return a, s') => f a s'
  | (Raise e, s') => (Raise e, s')
  end.

Definition raise {A : Type} (e : PyExc) : Py A := λ s, (Raise e, s).

(** Evaluate an expression that reads no state. *)
Definition eval {A : Type} (r : result A) : Py A := λ s, (r, s).

(** [try: body except Exception as err: handler err]. *)
Definition try_except_Exception {A : Type}
    (body : Py A) (handler : PyExc → Py A) : Py A := λ s,
  match body s with
  | (Return a, s') => (Return a, s')
  | (Raise err, s') =>
      if isinstance err Exception then handler err s' else (Raise err, s')
  end.

Definition context_invocation_metadata : Py (list (string * string)) :=
  λ s, (Return (invocation_metadata (context s)), s).

Definition context_set_code (c : StatusCode) : Py unit := λ s,
  (Return tt,
   mkState (mkContext (invocation_metadata (context s)) (Some c)
                      (details (context s)))
           (request_iterator s) (_LOGGER s) (handler_calls s)).

Definition context_set_details (d : string) : Py unit := λ s,
  (Return tt,
   mkState (mkContext (invocation_metadata (context s)) (code (context s))
                      (Some d))
           (request_iterator s) (_LOGGER s) (handler_calls s)).

Definition emit (r : LogRecord) : Py unit := λ s,
  (Return tt,
   mkState (context s) (request_iterator s) (_LOGGER s ++ [r])
           (handler_calls s)).

(** [_LOGGER.critical(msg, err, exc_info=True)]. *)
Definition _LOGGER_critical (m : string) (err : PyExc) : Py unit :=
  emit (mkLogRecord CRITICAL m [ArgExc err] true).

(** Call the map handler, noting its arguments in the ghost trace. *)
Definition call_map_handler (f : UDFMapCallable) (key : string)
    (datum : Datum.t) : Py Messages.t := λ s,
  (f key datum,
   mkState (context s) (request_iterator s) (_LOGGER s)
           (handler_calls s ++ [(key, datum)])).

(** ** class UserDefinedFunctionServicer *)

Inductive Coroutine : Type :=
| server_graceful_shutdown (grace : Z).

Record UserDefinedFunctionServicer : Type := mkServicer {
  __map_handler : UDFMapCallable;
  sock_path : string;
  _max_message_size : Z;
  _cleanup_coroutines : list Coroutine
}.

Definition __init__ (map_handler : UDFMapCallable) (sock_path : string)
    (max_message_size : Z) : UserDefinedFunctionServicer :=
  mkServicer map_handler ("unix://" ++ sock_path)%string max_message_size [].

(** [UserDefinedFunctionServicer(map_handler)], with the default arguments. *)
Definition new_servicer `{Runtime} (map_handler : UDFMapCallable)
    : UserDefinedFunctionServicer :=
  __init__ map_handler FUNCTION_SOCK_PATH MAX_MESSAGE_SIZE.

(** Lines 68-71: the metadata loop; every entry under [DATUM_KEY] assigns
    [key] and the loop runs to the end of the metadata. *)
Definition datum_key `{Runtime} (metadata : list (string * string)) : string :=
  foldl (λ key '(metadata_key, metadata_value),
           if decide (metadata_key = DATUM_KEY) then metadata_value else key)
        "" metadata.

(** Lines 88-90: the loop that fills [datums]. *)
Definition to_datums (msgs : list Message.t) : list udfunction_pb2.Datum.t :=
  foldl (λ datums msg,
           datums ++ [udfunction_pb2.new_Datum (Message.key msg)
                                               (Message.value msg)])
        [] msgs.

Definition MapFn `{Runtime} (self : UserDefinedFunctionServicer)
    (request : udfunction_pb2.Datum.t) : Py udfunction_pb2.DatumList.t :=
  metadata ← context_invocation_metadata;
  let key := datum_key metadata in
  msgs ← try_except_Exception
    (event_time ← eval (ToDatetime (udfunction_pb2.Datum.event_time request));
     watermark ← eval (ToDatetime (udfunction_pb2.Datum.watermark request));
     call_map_handler (__map_handler self) key
       (Datum.mk (udfunction_pb2.Datum.value request) event_time watermark))
    (λ err,
       _LOGGER_critical "UDFError, dropping message on the floor: %r" err;;
       mret (Messages.as_forward_all PyNone));
  let datums := to_datums (Messages.items msgs) in
  mret (udfunction_pb2.DatumList.mk datums).

(** The request stream is the [request_iterator] of the state. *)
Definition ReduceFn (self : UserDefinedFunctionServicer)
    : Py udfunction_pb2.DatumList.t :=
  context_set_code UNIMPLEMENTED;;
  context_set_details "Method not implemented!";;
  raise (mkExc NotImplementedError "Method not implemented!").

Definition IsReady (self : UserDefinedFunctionServicer) (request : unit)
    : Py udfunction_pb2.ReadyResponse.t :=
  mret (udfunction_pb2.ReadyResponse.mk true).

(** ** The server of [__serve] *)

(** A [grpc.aio] server as [__serve] configures it: the channel options it
    was created with, the servicers registered, the ports added and whether
    it was started. *)
Record GrpcServer : Type := mkServer {
  options : list (string * Z);
  servicers : list UserDefinedFunctionServicer;
  insecure_ports : list string;
  started : bool
}.

Definition grpc_aio_server (opts : list (string * Z)) : GrpcServer :=
  mkServer opts [] [] false.

Definition add_UserDefinedFunctionServicer_to_server
    (servicer : UserDefinedFunctionServicer) (server : GrpcServer)
    : GrpcServer :=
  mkServer (options server) (servicers server ++ [servicer])
           (insecure_ports server) (started server).

Definition add_insecure_port (address : string) (server : GrpcServer)
    : GrpcServer :=
  mkServer (options server) (servicers server)
           (insecure_ports server ++ [address]) (started server).

Definition server_start (server : GrpcServer) : GrpcServer :=
  mkServer (options server) (servicers server) (insecure_ports server) true.

(** The value of a channel option, if the server was given it. *)
Fixpoint channel_option (name : string) (opts : list (string * Z))
    : option Z :=
  match opts with
  | [] => None
  | (k, v) :: opts' =>
      if decide (k = name) then Some v else channel_option name opts'
  end.

Definition max_send_message_length (server : GrpcServer) : option Z :=
  channel_option "grpc.max_send_message_length" (options server).

Definition max_receive_message_length (server : GrpcServer) : option Z :=
  channel_option "grpc.max_receive_message_length" (options server).

(** [__serve], up to the point where it waits for termination: the server
    it started, the servicer with the shutdown coroutine added, and the
    logger. *)
Definition __serve `{Runtime} (self : UserDefinedFunctionServicer)
    (log : list LogRecord)
    : GrpcServer * UserDefinedFunctionServicer * list LogRecord :=
  let server := grpc_aio_server
    [("grpc.max_send_message_length", _max_message_size self);
     ("grpc.max_receive_message_length", _max_message_size self)] in
  let server := add_UserDefinedFunctionServicer_to_server
    (new_servicer (__map_handler self)) server in
  let server := add_insecure_port (sock_path self) server in
  let log :=
    log ++ [mkLogRecord INFO "Server listening on: %s"
                        [ArgStr (sock_path self)] false] in
  let server := server_start server in
  let self := mkServicer (__map_handler self) (sock_path self)
    (_max_message_size self)
    (_cleanup_coroutines self ++ [server_graceful_shutdown 5]) in
  (server, self, log).

(** ** Calls arriving at a started server *)

Inductive Rpc : Type :=
| MapRpc (request : udfunction_pb2.Datum.t) (ctx : ServicerContext)
| ReduceRpc (stream : list udfunction_pb2.Datum.t) (ctx : ServicerContext)
| IsReadyRpc (ctx : ServicerContext).

(** A call starts with its own context and request stream; the logger and
    the ghost trace are those of the process. *)
Definition begin_call (ctx : ServicerContext)
    (stream : list udfunction_pb2.Datum.t) (s : RpcState) : RpcState :=
  mkState ctx stream (_LOGGER s) (handler_calls s).

Definition serve_rpc `{Runtime} (self : UserDefinedFunctionServicer)
    (s : RpcState) (rpc : Rpc) : RpcState :=
  match rpc with
  | MapRpc request ctx => (MapFn self request (begin_call ctx [] s)).2
  | ReduceRpc stream ctx => (ReduceFn self (begin_call ctx stream s)).2
  | IsReadyRpc ctx => (IsReady self tt (begin_call ctx [] s)).2
  end.

Definition serve_rpcs `{Runtime} (self : UserDefinedFunctionServicer)
    (s : RpcState) (rpcs : list Rpc) : RpcState :=
  foldl (serve_rpc self) s rpcs.

(** ** Vocabulary of the properties *)

(** The values of the metadata entries under [DATUM_KEY], in metadata
    order. *)
Definition routing_values `{Runtime} (metadata : list (string * string))
    : list string :=
  (filter (λ entry, entry.1 = DATUM_KEY) metadata).*2.

(** The key as the specification words it: the first entry under
    [DATUM_KEY], else the empty string. *)
Definition spec_first_seen_key `{Runtime} (metadata : list (string * string))
    : string :=
  default "" (head (routing_values metadata)).

(** The datum the handler is called with once both timestamps convert. *)
Definition datum_of (request : udfunction_pb2.Datum.t)
    (event_time watermark : datetime) : Datum.t :=
  Datum.mk (udfunction_pb2.Datum.value request) event_time watermark.

(** The record [MapFn] logs when it drops a message. *)
Definition UDFError_record (err : PyExc) : LogRecord :=
  mkLogRecord CRITICAL "UDFError, dropping message on the floor: %r"
              [ArgExc err] true.

(** The state after the map handler was called once with [key] and
    [datum] and the records [emitted] were logged. *)
Definition after_call (s : RpcState) (key : string) (datum : Datum.t)
    (emitted : list LogRecord) : RpcState :=
  mkState (context s) (request_iterator s) (_LOGGER s ++ emitted)
          (handler_calls s ++ [(key, datum)]).

(** ** A runtime and inputs to evaluate on *)

(** A [ToDatetime] in the manner of protobuf: whole microseconds, rounded
    towards zero, within the years 1 to 9999. *)
Definition sample_ToDatetime (ts : Timestamp) : result datetime :=
  let us := seconds ts * 1000000 + Z.quot (nanos ts) 1000 in
  if decide (-62135596800000000 ≤ us ≤ 253402300799999999)%Z
  then Return (mkDatetime us)
  else Raise (mkExc OverflowError "date value out of range").

Definition sample_runtime : Runtime := {|
  FUNCTION_SOCK_PATH := "/var/run/numaflow/function.sock";
  DATUM_KEY := "x-numaflow-datum-key";
  MAX_MESSAGE_SIZE := 1024 * 1024 * 64;
  ToDatetime := sample_ToDatetime
|}.

(** The handler of the class docstring: forward the value under the key. *)
Definition forward_handler : UDFMapCallable := λ key datum,
  Return (Messages.append Messages.new
            (Message.mk key (Datum.value datum))).

Definition raising_handler (err : PyExc) : UDFMapCallable :=
  λ _ _, Raise err.

Definition hello : bytes := list_byte_of_string "hello".

Definition hello_request : udfunction_pb2.Datum.t :=
  udfunction_pb2.Datum.mk "" hello (mkTimestamp 1 0) (mkTimestamp 1 0).

Definition hello_datum : Datum.t :=
  Datum.mk hello (mkDatetime 1000000) (mkDatetime 1000000).

Definition context_with (metadata : list (string * string))
    : ServicerContext :=
  mkContext metadata None None.

Definition fresh_state (metadata : list (string * string)) : RpcState :=
  mkState (context_with metadata) [] [] [].

Definition one_key : list (string * string) :=
  [("x-numaflow-datum-key", "X")].

(** Two entries under the routing-key name, with different values. *)
Definition two_keys : list (string * string) :=
  [("x-numaflow-datum-key", "first"); ("x-numaflow-datum-key", "second")].

Definition three_entries : list (string * string) :=
  [("x-numaflow-datum-key", "first"); ("x-other", "ignored");
   ("x-numaflow-datum-key", "second")].

Definition bad_element : PyExc := mkExc ValueError "bad element".

Definition exit_request : PyExc := mkExc SystemExit "1".

Definition interrupt : PyExc := mkExc KeyboardInterrupt "".

(** A servicer built with the default arguments of the sample runtime. *)
Definition sample_servicer (map_handler : UDFMapCallable)
    : UserDefinedFunctionServicer :=
  new_servicer (H := sample_runtime) map_handler.


(** ** [start] and the event loop *)

(** The calls [__serve] and the shutdown coroutine make into grpc may
    raise; an execution fixes which of them do ([None]: the call
    returns).  [wait_for_termination_raises] is how the wait of line 137
    ends: it returns, or an exception (an interrupt, say) ends it. *)
Record GrpcRun : Type := mkRun {
  server_raises : option PyExc;
  add_servicer_raises : option PyExc;
  add_insecure_port_raises : option PyExc;
  start_raises : option PyExc;
  wait_for_termination_raises : option PyExc;
  stop_raises : option PyExc
}.

(** The objects [start] works on: the servicer, the server [__serve]
    builds (none before line 116), the module logger, the root logger,
    the grace periods [server.stop] was called with, and whether the event
    loop of [asyncio.get_event_loop()] is closed. *)
Record Process : Type := mkProcess {
  servicer : UserDefinedFunctionServicer;
  server : option GrpcServer;
  module_logger : list LogRecord;
  root_logger : list LogRecord;
  stop_calls : list Z;
  loop_closed : bool
}.

Definition Proc (A : Type) : Type := Process → result A * Process.

#[global] Instance Proc_ret : MRet Proc := λ A a p, (Return a, p).

#[global] Instance Proc_bind : MBind Proc := λ A B f m p,
  match m p with
  | (Return a, p') => f a p'
  | (Raise e, p') => (Raise e, p')
  end.

(** A call into the library: it raises what the execution says, else its
    effect takes place. *)
Definition library_call (raises : option PyExc) (effect : Process → Process)
    : Proc unit := λ p,
  match raises with
  | Some err => (Raise err, p)
  | None => (Return tt, effect p)
  end.

Definition set_server (srv : GrpcServer) (p : Process) : Process :=
  mkProcess (servicer p) (Some srv) (module_logger p) (root_logger p)
            (stop_calls p) (loop_closed p).

Definition on_server (f : GrpcServer → GrpcServer) (p : Process) : Process :=
  mkProcess (servicer p) (f <$> server p) (module_logger p) (root_logger p)
            (stop_calls p) (loop_closed p).

(** [_LOGGER.info(msg, arg)]. *)
Definition _LOGGER_info (m : string) (arg : string) : Proc unit := λ p,
  (Return tt,
   mkProcess (servicer p) (server p)
             (module_logger p ++ [mkLogRecord INFO m [ArgStr arg] false])
             (root_logger p) (stop_calls p) (loop_closed p)).

(** [logging.info(msg)], on the root logger. *)
Definition logging_info (m : string) : Proc unit := λ p,
  (Return tt,
   mkProcess (servicer p) (server p) (module_logger p)
             (root_logger p ++ [mkLogRecord INFO m [] false])
             (stop_calls p) (loop_closed p)).

(** [self._cleanup_coroutines.append(coroutine)]. *)
Definition _cleanup_coroutines_append (coroutine : Coroutine) : Proc unit :=
  λ p,
  (Return tt,
   mkProcess (mkServicer (__map_handler (servicer p)) (sock_path (servicer p))
                         (_max_message_size (servicer p))
                         (_cleanup_coroutines (servicer p) ++ [coroutine]))
             (server p) (module_logger p) (root_logger p) (stop_calls p)
             (loop_closed p)).

(** [server.stop(grace)], noted before the call can raise. *)
Definition server_stop (raises : option PyExc) (grace : Z) : Proc unit := λ p,
  library_call raises id
    (mkProcess (servicer p) (server p) (module_logger p) (root_logger p)
               (stop_calls p ++ [grace]) (loop_closed p)).

Definition loop_close : Proc unit := λ p,
  (Return tt,
   mkProcess (servicer p) (server p) (module_logger p) (root_logger p)
             (stop_calls p) true).

(** The coroutine [__serve], lines 115-137, with the calls that may raise. *)
Definition __serve_coroutine `{Runtime} (run : GrpcRun) : Proc unit := λ p,
  let self := servicer p in
  (library_call (server_raises run)
     (set_server (grpc_aio_server
        [("grpc.max_send_message_length", _max_message_size self);
         ("grpc.max_receive_message_length", _max_message_size self)]));;
   library_call (add_servicer_raises run)
     (on_server (add_UserDefinedFunctionServicer_to_server
                   (new_servicer (__map_handler self))));;
   library_call (add_insecure_port_raises run)
     (on_server (add_insecure_port (sock_path self)));;
   _LOGGER_info "Server listening on: %s" (sock_path self);;
   library_call (start_raises run) (on_server server_start);;
   _cleanup_coroutines_append (server_graceful_shutdown 5);;
   library_call (wait_for_termination_raises run) id) p.

(** The body of a cleanup coroutine, lines 129-134. *)
Definition run_coroutine (run : GrpcRun) (coroutine : Coroutine)
    : Proc unit :=
  match coroutine with
  | server_graceful_shutdown grace =>
      logging_info "Starting graceful shutdown...";;
      server_stop (stop_raises run) grace
  end.

(** [loop.run_until_complete(future)]: a closed loop refuses to run. *)
Definition run_until_complete {A : Type} (future : Proc A) : Proc A := λ p,
  if loop_closed p
  then (Raise (mkExc RuntimeError "Event loop is closed"), p)
  else future p.

(** [loop.run_until_complete( *self._cleanup_coroutines)], line 145: the
    list is unpacked into the arguments of a method that takes exactly one
    future; with any other number of them the call itself is a
    [TypeError]. *)
Definition run_until_complete_cleanup (run : GrpcRun) : Proc unit := λ p,
  match _cleanup_coroutines (servicer p) with
  | [coroutine] => run_until_complete (run_coroutine run coroutine) p
  | [] =>
      (Raise (mkExc TypeError
                "run_until_complete() missing 1 required positional argument"),
       p)
  | _ :: _ :: _ =>
      (Raise (mkExc TypeError
                "run_until_complete() takes 2 positional arguments"), p)
  end.

(** [try: body finally: final]: [final] runs however [body] ends; an
    exception of [final] replaces the outcome of [body]. *)
Definition try_finally {A : Type} (body : Proc A) (final : Proc unit)
    : Proc A := λ p,
  match body p with
  | (outcome, p') =>
      match final p' with
      | (Return _, p'') => (outcome, p'')
      | (Raise err, p'') => (Raise err, p'')
      end
  end.

Definition start `{Runtime} (run : GrpcRun) : Proc unit :=
  try_finally (run_until_complete (__serve_coroutine run))
              (run_until_complete_cleanup run;; loop_close).

(** ** Further vocabulary *)

(** The first of the calls of lines 116-127 that raises, if one does. *)
Definition startup_failure (run : GrpcRun) : option PyExc :=
  match server_raises run, add_servicer_raises run,
        add_insecure_port_raises run, start_raises run with
  | Some err, _, _, _ => Some err
  | None, Some err, _, _ => Some err
  | None, None, Some err, _ => Some err
  | None, None, None, raises => raises
  end.

(** How a call that raises [raises] ends. *)
Definition outcome_of (raises : option PyExc) : result unit :=
  match raises with
  | Some err => Raise err
  | None => Return tt
  end.

(** The state with one more record on the logger. *)
Definition logged (s : RpcState) (r : LogRecord) : RpcState :=
  mkState (context s) (request_iterator s) (_LOGGER s ++ [r])
          (handler_calls s).

(** The state with one more call in the handler trace. *)
Definition called (s : RpcState) (key : string) (datum : Datum.t)
    : RpcState :=
  mkState (context s) (request_iterator s) (_LOGGER s)
          (handler_calls s ++ [(key, datum)]).

(** The response [MapFn] builds after the [except] clause. *)
Definition drop_response : udfunction_pb2.DatumList.t :=
  udfunction_pb2.DatumList.mk
    (to_datums (Messages.items (Messages.as_forward_all PyNone))).

(** Where an exception raised inside the [try] of [MapFn] leads from the
    state [s] it was raised in. *)
Definition contained (err : PyExc) (s : RpcState)
    : result udfunction_pb2.DatumList.t * RpcState :=
  if isinstance err Exception
  then (Return drop_response, logged s (UDFError_record err))
  else (Raise err, s).

Definition is_MapRpc (rpc : Rpc) : bool :=
  match rpc with
  | MapRpc _ _ => true
  | _ => false
  end.

(** The number of [Map] calls among [rpcs]. *)
Definition map_rpcs (rpcs : list Rpc) : nat :=
  length (filter (λ rpc, is_MapRpc rpc = true) rpcs).

(** A process about to call [start]: a servicer fresh from [__init__], no
    server yet, the loop open. *)
Definition fresh_process (self : UserDefinedFunctionServicer) : Process :=
  mkProcess self None [] [] [] false.

Definition quiet_run : GrpcRun := mkRun None None None None None None.

(** A run in which binding the socket fails. *)
Definition bind_failure : PyExc :=
  mkExc RuntimeError "Failed to bind to address".

Definition failing_bind_run : GrpcRun :=
  mkRun None None (Some bind_failure) None None None.

(** A run in which stopping the server fails. *)
Definition failing_stop_run : GrpcRun :=
  mkRun None None None None None (Some (mkExc RuntimeError "stop failed")).

(** A run that an interrupt ends while the server waits. *)
Definition interrupted_run : GrpcRun :=
  mkRun None None None None (Some interrupt) None.

(** A timestamp beyond the year 9999. *)
Definition late_request : udfunction_pb2.Datum.t :=
  udfunction_pb2.Datum.mk "" hello (mkTimestamp 253402300800 0)
                          (mkTimestamp 1 0).


(** * Properties *)

(** ** The two loops of [MapFn] *)

Lemma to_datums_snoc (acc : list udfunction_pb2.Datum.t)
    (msgs : list Message.t) :
  foldl (λ datums msg,
           datums ++ [udfunction_pb2.new_Datum (Message.key msg)
                                               (Message.value msg)])
        acc msgs
  = acc ++ ((λ msg, udfunction_pb2.new_Datum (Message.key msg)
                                            (Message.value msg)) <$> msgs).
Proof.
  revert acc. induction msgs as [|msg msgs IH]; intros acc; simpl.
  - by rewrite app_nil_r.
  - rewrite IH. by rewrite <- app_assoc.
Qed.

(** The response holds one wire datum per message, in the order of
    [items]. *)
Lemma to_datums_fmap (msgs : list Message.t) :
  to_datums msgs
  = (λ msg, udfunction_pb2.new_Datum (Message.key msg) (Message.value msg))
      <$> msgs.
Proof. unfold to_datums. by rewrite to_datums_snoc. Qed.

Section Running.
Context `{Runtime}.

Lemma datum_key_snoc (metadata : list (string * string)) (k v : string) :
  datum_key (metadata ++ [(k, v)])
  = if decide (k = DATUM_KEY) then v else datum_key metadata.
Proof. unfold datum_key. by rewrite foldl_app. Qed.

Lemma routing_values_snoc (metadata : list (string * string))
    (k v : string) :
  routing_values (metadata ++ [(k, v)])
  = routing_values metadata ++ (if decide (k = DATUM_KEY) then [v] else []).
Proof.
  unfold routing_values. rewrite filter_app, fmap_app. f_equal.
  rewrite filter_cons, filter_nil. simpl. by destruct (decide (k = DATUM_KEY)).
Qed.

(** The loop keeps the value of the last entry under [DATUM_KEY]. *)
Lemma datum_key_last (metadata : list (string * string)) :
  datum_key metadata = default "" (last (routing_values metadata)).
Proof.
  induction metadata as [|[k v] metadata IH] using rev_ind; [done|].
  rewrite datum_key_snoc, routing_values_snoc.
  destruct (decide (k = DATUM_KEY)).
  - by rewrite last_snoc.
  - by rewrite app_nil_r.
Qed.

(** ** Running [MapFn] *)

Lemma MapFn_handler_returned (self : UserDefinedFunctionServicer)
    (request : udfunction_pb2.Datum.t) (s : RpcState)
    (event_time watermark : datetime) (msgs : Messages.t) :
  ToDatetime (udfunction_pb2.Datum.event_time request) = Return event_time →
  ToDatetime (udfunction_pb2.Datum.watermark request) = Return watermark →
  __map_handler self (datum_key (invocation_metadata (context s)))
                (datum_of request event_time watermark) = Return msgs →
  MapFn self request s
  = (Return (udfunction_pb2.DatumList.mk (to_datums (Messages.items msgs))),
     after_call s (datum_key (invocation_metadata (context s)))
                (datum_of request event_time watermark) []).
Proof.
  intros Het Hwm Hcall.
  unfold MapFn, mbind, Py_bind, context_invocation_metadata,
    try_except_Exception, eval, call_map_handler, datum_of in *.
  rewrite Het, Hwm, Hcall. unfold after_call, mret, Py_ret. simpl.
  by rewrite app_nil_r.
Qed.

Lemma MapFn_handler_raised (self : UserDefinedFunctionServicer)
    (request : udfunction_pb2.Datum.t) (s : RpcState)
    (event_time watermark : datetime) (err : PyExc) :
  ToDatetime (udfunction_pb2.Datum.event_time request) = Return event_time →
  ToDatetime (udfunction_pb2.Datum.watermark request) = Return watermark →
  __map_handler self (datum_key (invocation_metadata (context s)))
                (datum_of request event_time watermark) = Raise err →
  MapFn self request s
  = if isinstance err Exception
    then (Return (udfunction_pb2.DatumList.mk []),
          after_call s (datum_key (invocation_metadata (context s)))
                     (datum_of request event_time watermark)
                     [UDFError_record err])
    else (Raise err,
          after_call s (datum_key (invocation_metadata (context s)))
                     (datum_of request event_time watermark) []).
Proof.
  intros Het Hwm Hcall.
  unfold MapFn, mbind, Py_bind, context_invocation_metadata,
    try_except_Exception, eval, call_map_handler, datum_of in *.
  rewrite Het, Hwm, Hcall. unfold after_call. simpl.
  destruct (isinstance err Exception); simpl.
  - done.
  - by rewrite app_nil_r.
Qed.

End Running.

Section Handlers.
Context `{Runtime}.

(** Once both timestamps convert, the handler is called exactly once, with
    the key the metadata loop ended on. *)
Lemma MapFn_handler_called (self : UserDefinedFunctionServicer)
    (request : udfunction_pb2.Datum.t) (s : RpcState)
    (event_time watermark : datetime) :
  ToDatetime (udfunction_pb2.Datum.event_time request) = Return event_time →
  ToDatetime (udfunction_pb2.Datum.watermark request) = Return watermark →
  handler_calls (MapFn self request s).2
  = handler_calls s
    ++ [(datum_key (invocation_metadata (context s)),
         datum_of request event_time watermark)].
Proof.
  intros Het Hwm.
  destruct (__map_handler self (datum_key (invocation_metadata (context s)))
              (datum_of request event_time watermark)) as [msgs|err] eqn:Hcall.
  - by rewrite (MapFn_handler_returned _ _ _ _ _ _ Het Hwm Hcall).
  - rewrite (MapFn_handler_raised _ _ _ _ _ _ Het Hwm Hcall).
    by destruct (isinstance err Exception).
Qed.

Lemma elem_of_routing_values (metadata : list (string * string))
    (v : string) :
  v ∈ routing_values metadata ↔ (DATUM_KEY, v) ∈ metadata.
Proof.
  unfold routing_values. rewrite list_elem_of_fmap. split.
  - intros [[k v'] [-> Hin]]. apply list_elem_of_filter in Hin as [Hk Hin].
    simpl in Hk. by subst k.
  - intros Hin. exists (DATUM_KEY, v). split; [done|].
    by apply list_elem_of_filter.
Qed.

(** C1, as amended: when the map handler raises an exception of class
    [Exception] (or of a class derived from it), [MapFn] returns normally
    a [DatumList]
    with no element; the context keeps the code and details it had, the
    request stream is untouched, and the logger gains exactly one record,
    of level CRITICAL. *)
Theorem MapFn_drops_on_handler_fault (self : UserDefinedFunctionServicer)
    (request : udfunction_pb2.Datum.t) (s : RpcState)
    (event_time watermark : datetime) (err : PyExc) :
  ToDatetime (udfunction_pb2.Datum.event_time request) = Return event_time →
  ToDatetime (udfunction_pb2.Datum.watermark request) = Return watermark →
  __map_handler self (datum_key (invocation_metadata (context s)))
                (datum_of request event_time watermark) = Raise err →
  isinstance err Exception = true →
  ∃ s' : RpcState,
    MapFn self request s = (Return (udfunction_pb2.DatumList.mk []), s')
    ∧ context s' = context s
    ∧ request_iterator s' = request_iterator s
    ∧ _LOGGER s' = _LOGGER s ++ [UDFError_record err]
    ∧ levelname (UDFError_record err) = CRITICAL.
Proof.
  intros Het Hwm Hcall Hexc.
  rewrite (MapFn_handler_raised _ _ _ _ _ _ Het Hwm Hcall), Hexc.
  by eexists.
Qed.

(** C2, as amended: when the metadata holds two or more entries under the
    routing-key name, the key the map handler is called with is the value
    of the last such entry in metadata order. *)
Theorem MapFn_last_seen_key (self : UserDefinedFunctionServicer)
    (request : udfunction_pb2.Datum.t) (s : RpcState)
    (event_time watermark : datetime) :
  (2 ≤ length (routing_values (invocation_metadata (context s))))%nat →
  ToDatetime (udfunction_pb2.Datum.event_time request) = Return event_time →
  ToDatetime (udfunction_pb2.Datum.watermark request) = Return watermark →
  ∃ v : string,
    last (routing_values (invocation_metadata (context s))) = Some v
    ∧ handler_calls (MapFn self request s).2
      = handler_calls s ++ [(v, datum_of request event_time watermark)].
Proof.
  intros Hlen Het Hwm.
  rewrite (MapFn_handler_called _ _ _ _ _ Het Hwm), datum_key_last.
  destruct (last (routing_values (invocation_metadata (context s))))
    as [v|] eqn:Hlast.
  - by exists v.
  - apply last_None in Hlast. rewrite Hlast in Hlen. simpl in Hlen. lia.
Qed.

(** C3: when the map handler returns a collection of n messages, [MapFn]
    returns a [DatumList] of exactly n elements, the i-th of which carries
    the key and the value of the i-th message. *)
Theorem MapFn_passes_messages_through (self : UserDefinedFunctionServicer)
    (request : udfunction_pb2.Datum.t) (s : RpcState)
    (event_time watermark : datetime) (msgs : Messages.t) :
  ToDatetime (udfunction_pb2.Datum.event_time request) = Return event_time →
  ToDatetime (udfunction_pb2.Datum.watermark request) = Return watermark →
  __map_handler self (datum_key (invocation_metadata (context s)))
                (datum_of request event_time watermark) = Return msgs →
  ∃ (response : udfunction_pb2.DatumList.t) (s' : RpcState),
    MapFn self request s = (Return response, s')
    ∧ length (udfunction_pb2.DatumList.elements response)
      = length (Messages.items msgs)
    ∧ (udfunction_pb2.Datum.key
         <$> udfunction_pb2.DatumList.elements response)
      = (Message.key <$> Messages.items msgs)
    ∧ (udfunction_pb2.Datum.value
         <$> udfunction_pb2.DatumList.elements response)
      = (Message.value <$> Messages.items msgs)
    ∧ ∀ (i : nat) (msg : Message.t),
        Messages.items msgs !! i = Some msg →
        ∃ datum : udfunction_pb2.Datum.t,
          udfunction_pb2.DatumList.elements response !! i = Some datum
          ∧ udfunction_pb2.Datum.key datum = Message.key msg
          ∧ udfunction_pb2.Datum.value datum = Message.value msg.
Proof.
  intros Het Hwm Hcall.
  rewrite (MapFn_handler_returned _ _ _ _ _ _ Het Hwm Hcall).
  do 2 eexists. split; [done|]. simpl. rewrite to_datums_fmap.
  repeat split.
  - by rewrite length_fmap.
  - rewrite <- list_fmap_compose. by apply list_fmap_ext.
  - rewrite <- list_fmap_compose. by apply list_fmap_ext.
  - intros i msg Hi. eexists. rewrite list_lookup_fmap, Hi. by simpl.
Qed.

(** C4, as amended: when the metadata holds entries under the routing-key
    name, the key the map handler is called with is the value of the last
    of them in metadata order, hence the value of the entry when all the
    entries under the name carry one value; without such an entry the key
    is the empty string. *)
Theorem MapFn_key_argument (self : UserDefinedFunctionServicer)
    (request : udfunction_pb2.Datum.t) (s : RpcState)
    (event_time watermark : datetime) :
  ToDatetime (udfunction_pb2.Datum.event_time request) = Return event_time →
  ToDatetime (udfunction_pb2.Datum.watermark request) = Return watermark →
  ∃ key : string,
    handler_calls (MapFn self request s).2
    = handler_calls s ++ [(key, datum_of request event_time watermark)]
    ∧ (∀ v, last (routing_values (invocation_metadata (context s))) = Some v →
            key = v)
    ∧ (∀ v, (DATUM_KEY, v) ∈ invocation_metadata (context s) →
            (∀ v', (DATUM_KEY, v') ∈ invocation_metadata (context s) →
                   v' = v) →
            key = v)
    ∧ ((∀ v, (DATUM_KEY, v) ∉ invocation_metadata (context s)) → key = "").
Proof.
  intros Het Hwm. eexists. split; [by apply MapFn_handler_called|].
  rewrite datum_key_last.
  destruct (last (routing_values (invocation_metadata (context s))))
    as [v'|] eqn:Hlast; simpl.
  - apply last_Some_elem_of, elem_of_routing_values in Hlast.
    repeat split.
    + by intros v [= ->].
    + intros v _ Hall. by apply Hall.
    + intros Hnone. by destruct (Hnone v').
  - apply last_None in Hlast. repeat split.
    + by intros v.
    + intros v Hin _. apply elem_of_routing_values in Hin.
      rewrite Hlast in Hin. by apply elem_of_nil in Hin.
Qed.

End Handlers.

(** ** [ReduceFn] and [IsReady] *)

(** C5: whatever the request stream, the context and the logger,
    [ReduceFn] sets the status code UNIMPLEMENTED and the details
    "Method not implemented!", raises [NotImplementedError] with the same
    message, returns no [DatumList], and leaves the request stream (and
    the logger) as they were. *)
Theorem ReduceFn_unimplemented (self : UserDefinedFunctionServicer)
    (s : RpcState) :
  ∃ s' : RpcState,
    ReduceFn self s
    = (Raise (mkExc NotImplementedError "Method not implemented!"), s')
    ∧ code (context s') = Some UNIMPLEMENTED
    ∧ details (context s') = Some "Method not implemented!"
    ∧ invocation_metadata (context s') = invocation_metadata (context s)
    ∧ request_iterator s' = request_iterator s
    ∧ _LOGGER s' = _LOGGER s
    ∧ isinstance (mkExc NotImplementedError "Method not implemented!")
                 Exception = true
    ∧ ∀ (response : udfunction_pb2.DatumList.t) (s'' : RpcState),
        ReduceFn self s ≠ (Return response, s'').
Proof. eexists. by repeat split. Qed.

Section Serving.
Context `{Runtime}.

(** C6: [IsReady] returns [ready = true] in every state, so also in the
    state reached after any sequence of earlier calls, failed [MapFn]
    calls included; it never raises and leaves the context, the logger
    and the rest of the state as they were. *)
Theorem IsReady_always_ready (self : UserDefinedFunctionServicer)
    (request : unit) :
  (∀ s : RpcState,
     IsReady self request s
     = (Return (udfunction_pb2.ReadyResponse.mk true), s))
  ∧ (∀ (rpcs : list Rpc) (s0 : RpcState) (ctx : ServicerContext),
       IsReady self request (begin_call ctx [] (serve_rpcs self s0 rpcs))
       = (Return (udfunction_pb2.ReadyResponse.mk true),
          begin_call ctx [] (serve_rpcs self s0 rpcs))).
Proof. by split. Qed.

(** C7: the server [__serve] starts is created with the send limit and
    the receive limit both set to the [max_message_size] the servicer was
    built with. *)
Theorem serve_message_size_limits (map_handler : UDFMapCallable)
    (path : string) (max_message_size : Z) (log : list LogRecord) :
  max_send_message_length
    (__serve (__init__ map_handler path max_message_size) log).1.1
  = Some max_message_size
  ∧ max_receive_message_length
      (__serve (__init__ map_handler path max_message_size) log).1.1
    = Some max_message_size
  ∧ started (__serve (__init__ map_handler path max_message_size) log).1.1
    = true.
Proof. by repeat split. Qed.

(** ** The reach of the failure boundary *)

(** C9: when the map handler raises an exception whose class does not
    derive from [Exception], [MapFn] raises that exception: nothing is
    logged and no response is put in its place. *)
Theorem MapFn_propagates_non_Exception (self : UserDefinedFunctionServicer)
    (request : udfunction_pb2.Datum.t) (s : RpcState)
    (event_time watermark : datetime) (err : PyExc) :
  ToDatetime (udfunction_pb2.Datum.event_time request) = Return event_time →
  ToDatetime (udfunction_pb2.Datum.watermark request) = Return watermark →
  __map_handler self (datum_key (invocation_metadata (context s)))
                (datum_of request event_time watermark) = Raise err →
  isinstance err Exception = false →
  ∃ s' : RpcState,
    MapFn self request s = (Raise err, s')
    ∧ _LOGGER s' = _LOGGER s
    ∧ context s' = context s.
Proof.
  intros Het Hwm Hcall Hexc.
  rewrite (MapFn_handler_raised _ _ _ _ _ _ Het Hwm Hcall), Hexc.
  eexists. repeat split. simpl. by rewrite app_nil_r.
Qed.

(** ** Determinism *)

(** What [MapFn] returns or raises, and what it logs, as a function of the
    handler, the three request fields it reads and the metadata. *)
Lemma MapFn_reads (self : UserDefinedFunctionServicer)
    (request : udfunction_pb2.Datum.t) (s : RpcState) :
  ∃ emitted : list LogRecord,
    _LOGGER (MapFn self request s).2 = _LOGGER s ++ emitted
    ∧ ∀ (self' : UserDefinedFunctionServicer)
        (request' : udfunction_pb2.Datum.t) (s' : RpcState),
        __map_handler self = __map_handler self' →
        udfunction_pb2.Datum.value request
        = udfunction_pb2.Datum.value request' →
        udfunction_pb2.Datum.event_time request
        = udfunction_pb2.Datum.event_time request' →
        udfunction_pb2.Datum.watermark request
        = udfunction_pb2.Datum.watermark request' →
        invocation_metadata (context s) = invocation_metadata (context s') →
        (MapFn self request s).1 = (MapFn self' request' s').1
        ∧ _LOGGER (MapFn self' request' s').2 = _LOGGER s' ++ emitted.
Proof.
  unfold MapFn, mbind, Py_bind, context_invocation_metadata,
    try_except_Exception, eval, call_map_handler, _LOGGER_critical, emit,
    mret, Py_ret.
  destruct (ToDatetime (udfunction_pb2.Datum.event_time request))
    as [event_time|err] eqn:Het.
  - destruct (ToDatetime (udfunction_pb2.Datum.watermark request))
      as [watermark|err] eqn:Hwm.
    + destruct (__map_handler self
                  (datum_key (invocation_metadata (context s)))
                  (Datum.mk (udfunction_pb2.Datum.value request)
                            event_time watermark)) as [msgs|err] eqn:Hcall.
      * exists []. split; [by rewrite app_nil_r|].
        intros self' request' s' <- <- <- <- <-.
        rewrite Het, Hwm, Hcall. simpl. by rewrite app_nil_r.
      * destruct (isinstance err Exception) eqn:Hexc.
        -- exists [UDFError_record err]. split; [done|].
           intros self' request' s' <- <- <- <- <-.
           by rewrite Het, Hwm, Hcall, Hexc.
        -- exists []. split; [by rewrite app_nil_r|].
           intros self' request' s' <- <- <- <- <-.
           rewrite Het, Hwm, Hcall, Hexc. simpl. by rewrite app_nil_r.
    + destruct (isinstance err Exception) eqn:Hexc.
      * exists [UDFError_record err]. split; [done|].
        intros self' request' s' <- <- <- <- <-.
        by rewrite Het, Hwm, Hexc.
      * exists []. split; [by rewrite app_nil_r|].
        intros self' request' s' <- <- <- <- <-.
        rewrite Het, Hwm, Hexc. simpl. by rewrite app_nil_r.
  - destruct (isinstance err Exception) eqn:Hexc.
    + exists [UDFError_record err]. split; [done|].
      intros self' request' s' <- <- <- <- <-.
      by rewrite Het, Hexc.
    + exists []. split; [by rewrite app_nil_r|].
      intros self' request' s' <- <- <- <- <-.
      rewrite Het, Hexc. simpl. by rewrite app_nil_r.
Qed.

(** C10: two [MapFn] calls with the same map handler, equal [value],
    [event_time] and [watermark] request fields and equal metadata return
    the same [DatumList] (or raise the same exception) and log the same
    records, whatever else differs: the other fields of the servicer, the
    key field of the request, the code and details of the context, the
    request stream, the logger's history. *)
Theorem MapFn_deterministic (self1 self2 : UserDefinedFunctionServicer)
    (request1 request2 : udfunction_pb2.Datum.t) (s1 s2 : RpcState) :
  __map_handler self1 = __map_handler self2 →
  udfunction_pb2.Datum.value request1 = udfunction_pb2.Datum.value request2 →
  udfunction_pb2.Datum.event_time request1
  = udfunction_pb2.Datum.event_time request2 →
  udfunction_pb2.Datum.watermark request1
  = udfunction_pb2.Datum.watermark request2 →
  invocation_metadata (context s1) = invocation_metadata (context s2) →
  (MapFn self1 request1 s1).1 = (MapFn self2 request2 s2).1
  ∧ ∃ emitted : list LogRecord,
      _LOGGER (MapFn self1 request1 s1).2 = _LOGGER s1 ++ emitted
      ∧ _LOGGER (MapFn self2 request2 s2).2 = _LOGGER s2 ++ emitted.
Proof.
  intros Hh Hv Het Hwm Hmd.
  destruct (MapFn_reads self1 request1 s1) as (emitted & Hlog & Hsame).
  destruct (Hsame self2 request2 s2 Hh Hv Het Hwm Hmd) as [Hres Hlog2].
  split; [done|]. by exists emitted.
Qed.

End Serving.

(** * The properties at concrete calls *)

(** The scenario of the specification: the forwarding handler, the value
    "hello" and the metadata key "X" give one element, "hello" under "X". *)
Example MapFn_forward_scenario :
  MapFn (H := sample_runtime) (sample_servicer forward_handler)
        hello_request (fresh_state one_key)
  = (Return (udfunction_pb2.DatumList.mk [udfunction_pb2.new_Datum "X" hello]),
     mkState (context_with one_key) [] [] [("X", hello_datum)]).
Proof. reflexivity. Qed.

(** C1, as stated, fails: a handler that raises [SystemExit] is not
    contained; [MapFn] raises, returns no [DatumList] and logs nothing. *)
Lemma MapFn_SystemExit_escapes :
  raising_handler exit_request "X" hello_datum = Raise exit_request
  ∧ MapFn (H := sample_runtime) (sample_servicer (raising_handler exit_request))
          hello_request (fresh_state one_key)
    = (Raise exit_request,
       mkState (context_with one_key) [] [] [("X", hello_datum)])
  ∧ ∀ s' : RpcState,
      MapFn (H := sample_runtime)
            (sample_servicer (raising_handler exit_request))
            hello_request (fresh_state one_key)
      ≠ (Return (udfunction_pb2.DatumList.mk []), s').
Proof.
  split; [reflexivity|]. split; [reflexivity|].
  intros s' Heq. vm_compute in Heq. discriminate Heq.
Qed.

Lemma MapFn_drops_on_handler_fault_witness :
  ∃ s' : RpcState,
    MapFn (H := sample_runtime) (sample_servicer (raising_handler bad_element))
          hello_request (fresh_state one_key)
    = (Return (udfunction_pb2.DatumList.mk []), s')
    ∧ context s' = context (fresh_state one_key)
    ∧ request_iterator s' = request_iterator (fresh_state one_key)
    ∧ _LOGGER s' = _LOGGER (fresh_state one_key) ++ [UDFError_record bad_element]
    ∧ levelname (UDFError_record bad_element) = CRITICAL.
Proof.
  apply (MapFn_drops_on_handler_fault (H := sample_runtime)
           (sample_servicer (raising_handler bad_element)) hello_request
           (fresh_state one_key) (mkDatetime 1000000) (mkDatetime 1000000)
           bad_element); reflexivity.
Defined.

(** C2, as stated, fails: with the entries "first" and "second" under the
    routing-key name, in this order, the handler is called with "second",
    not with the first-seen "first". *)
Lemma MapFn_first_seen_key_fails :
  routing_values (H := sample_runtime) two_keys = ["first"; "second"]
  ∧ spec_first_seen_key (H := sample_runtime) two_keys = "first"
  ∧ MapFn (H := sample_runtime) (sample_servicer forward_handler)
          hello_request (fresh_state two_keys)
    = (Return (udfunction_pb2.DatumList.mk
                 [udfunction_pb2.new_Datum "second" hello]),
       mkState (context_with two_keys) [] [] [("second", hello_datum)])
  ∧ handler_calls
      (MapFn (H := sample_runtime) (sample_servicer forward_handler)
             hello_request (fresh_state two_keys)).2
    ≠ [(spec_first_seen_key (H := sample_runtime) two_keys, hello_datum)].
Proof. repeat split; try reflexivity. vm_compute. discriminate. Qed.

Lemma MapFn_last_seen_key_witness :
  ∃ v : string,
    last (routing_values (H := sample_runtime)
            (invocation_metadata (context (fresh_state two_keys)))) = Some v
    ∧ handler_calls
        (MapFn (H := sample_runtime) (sample_servicer forward_handler)
               hello_request (fresh_state two_keys)).2
      = handler_calls (fresh_state two_keys)
        ++ [(v, datum_of hello_request (mkDatetime 1000000)
                         (mkDatetime 1000000))].
Proof.
  apply (MapFn_last_seen_key (H := sample_runtime)
           (sample_servicer forward_handler) hello_request
           (fresh_state two_keys) (mkDatetime 1000000) (mkDatetime 1000000)).
  - vm_compute. lia.
  - reflexivity.
  - reflexivity.
Defined.

Lemma MapFn_passes_messages_through_witness :
  ∃ (response : udfunction_pb2.DatumList.t) (s' : RpcState),
    MapFn (H := sample_runtime) (sample_servicer forward_handler)
          hello_request (fresh_state one_key)
    = (Return response, s')
    ∧ length (udfunction_pb2.DatumList.elements response)
      = length (Messages.items
                  (Messages.append Messages.new (Message.mk "X" hello)))
    ∧ (udfunction_pb2.Datum.key
         <$> udfunction_pb2.DatumList.elements response)
      = (Message.key
           <$> Messages.items
                 (Messages.append Messages.new (Message.mk "X" hello)))
    ∧ (udfunction_pb2.Datum.value
         <$> udfunction_pb2.DatumList.elements response)
      = (Message.value
           <$> Messages.items
                 (Messages.append Messages.new (Message.mk "X" hello)))
    ∧ ∀ (i : nat) (msg : Message.t),
        Messages.items (Messages.append Messages.new (Message.mk "X" hello))
          !! i = Some msg →
        ∃ datum : udfunction_pb2.Datum.t,
          udfunction_pb2.DatumList.elements response !! i = Some datum
          ∧ udfunction_pb2.Datum.key datum = Message.key msg
          ∧ udfunction_pb2.Datum.value datum = Message.value msg.
Proof.
  apply (MapFn_passes_messages_through (H := sample_runtime)
           (sample_servicer forward_handler) hello_request
           (fresh_state one_key) (mkDatetime 1000000) (mkDatetime 1000000)
           (Messages.append Messages.new (Message.mk "X" hello)));
    reflexivity.
Defined.

(** C4, as stated, fails: the call carries the entry "first" under the
    routing-key name, and the handler is called with "second". *)
Lemma MapFn_key_not_every_entry :
  (DATUM_KEY (Runtime := sample_runtime), "first") ∈ three_entries
  ∧ MapFn (H := sample_runtime) (sample_servicer forward_handler)
          hello_request (fresh_state three_entries)
    = (Return (udfunction_pb2.DatumList.mk
                 [udfunction_pb2.new_Datum "second" hello]),
       mkState (context_with three_entries) [] [] [("second", hello_datum)])
  ∧ handler_calls
      (MapFn (H := sample_runtime) (sample_servicer forward_handler)
             hello_request (fresh_state three_entries)).2
    ≠ [("first", hello_datum)].
Proof.
  split; [apply list_elem_of_here|]. split; [reflexivity|].
  vm_compute. discriminate.
Qed.

Lemma MapFn_key_argument_witness :
  ∃ key : string,
    handler_calls
      (MapFn (H := sample_runtime) (sample_servicer forward_handler)
             hello_request (fresh_state three_entries)).2
    = handler_calls (fresh_state three_entries)
      ++ [(key, datum_of hello_request (mkDatetime 1000000)
                         (mkDatetime 1000000))]
    ∧ (∀ v, last (routing_values (H := sample_runtime)
                    (invocation_metadata
                       (context (fresh_state three_entries)))) = Some v →
            key = v)
    ∧ (∀ v, (DATUM_KEY (Runtime := sample_runtime), v)
              ∈ invocation_metadata (context (fresh_state three_entries)) →
            (∀ v', (DATUM_KEY (Runtime := sample_runtime), v')
                     ∈ invocation_metadata
                         (context (fresh_state three_entries)) →
                   v' = v) →
            key = v)
    ∧ ((∀ v, (DATUM_KEY (Runtime := sample_runtime), v)
               ∉ invocation_metadata (context (fresh_state three_entries))) →
       key = "").
Proof.
  apply (MapFn_key_argument (H := sample_runtime)
           (sample_servicer forward_handler) hello_request
           (fresh_state three_entries) (mkDatetime 1000000)
           (mkDatetime 1000000)); reflexivity.
Defined.

(** A call with one entry under the routing-key name passes its value, a
    call with none passes the empty string. *)
Example MapFn_key_one_or_none :
  handler_calls
    (MapFn (H := sample_runtime) (sample_servicer forward_handler)
           hello_request (fresh_state one_key)).2
  = [("X", hello_datum)]
  ∧ handler_calls
      (MapFn (H := sample_runtime) (sample_servicer forward_handler)
             hello_request (fresh_state [("x-other", "ignored")])).2
    = [("", hello_datum)].
Proof. split; reflexivity. Qed.

Lemma MapFn_propagates_non_Exception_witness :
  ∃ s' : RpcState,
    MapFn (H := sample_runtime) (sample_servicer (raising_handler interrupt))
          hello_request (fresh_state one_key)
    = (Raise interrupt, s')
    ∧ _LOGGER s' = _LOGGER (fresh_state one_key)
    ∧ context s' = context (fresh_state one_key).
Proof.
  apply (MapFn_propagates_non_Exception (H := sample_runtime)
           (sample_servicer (raising_handler interrupt)) hello_request
           (fresh_state one_key) (mkDatetime 1000000) (mkDatetime 1000000)
           interrupt); reflexivity.
Defined.

(** Two calls that agree on the handler, the three request fields and the
    metadata, and on nothing else. *)
Lemma MapFn_deterministic_witness :
  (MapFn (H := sample_runtime) (sample_servicer (raising_handler bad_element))
         hello_request (fresh_state one_key)).1
  = (MapFn (H := sample_runtime)
           (__init__ (raising_handler bad_element) "/tmp/udf.sock" 4096)
           (udfunction_pb2.Datum.mk "ignored" hello (mkTimestamp 1 0)
                                    (mkTimestamp 1 0))
           (mkState (mkContext one_key (Some UNKNOWN) (Some "earlier"))
                    [hello_request]
                    [UDFError_record interrupt]
                    [("Y", hello_datum)])).1
  ∧ ∃ emitted : list LogRecord,
      _LOGGER
        (MapFn (H := sample_runtime)
               (sample_servicer (raising_handler bad_element))
               hello_request (fresh_state one_key)).2
      = _LOGGER (fresh_state one_key) ++ emitted
      ∧ _LOGGER
          (MapFn (H := sample_runtime)
                 (__init__ (raising_handler bad_element) "/tmp/udf.sock" 4096)
                 (udfunction_pb2.Datum.mk "ignored" hello (mkTimestamp 1 0)
                                          (mkTimestamp 1 0))
                 (mkState (mkContext one_key (Some UNKNOWN) (Some "earlier"))
                          [hello_request]
                          [UDFError_record interrupt]
                          [("Y", hello_datum)])).2
        = _LOGGER
            (mkState (mkContext one_key (Some UNKNOWN) (Some "earlier"))
                     [hello_request]
                     [UDFError_record interrupt]
                     [("Y", hello_datum)])
          ++ emitted.
Proof.
  apply (MapFn_deterministic (H := sample_runtime)
           (sample_servicer (raising_handler bad_element))
           (__init__ (raising_handler bad_element) "/tmp/udf.sock" 4096)
           hello_request
           (udfunction_pb2.Datum.mk "ignored" hello (mkTimestamp 1 0)
                                    (mkTimestamp 1 0))
           (fresh_state one_key)
           (mkState (mkContext one_key (Some UNKNOWN) (Some "earlier"))
                    [hello_request]
                    [UDFError_record interrupt]
                    [("Y", hello_datum)])); reflexivity.
Defined.

(** The calls of the examples above, served one after the other: the
    failed ones leave [IsReady] as it is. *)
Example IsReady_after_failures :
  IsReady (sample_servicer (raising_handler bad_element)) tt
    (begin_call (context_with []) []
       (serve_rpcs (H := sample_runtime)
          (sample_servicer (raising_handler bad_element))
          (fresh_state [])
          [MapRpc hello_request (context_with one_key);
           ReduceRpc [hello_request] (context_with []);
           MapRpc hello_request (context_with two_keys)]))
  = (Return (udfunction_pb2.ReadyResponse.mk true),
     mkState (context_with []) []
             [UDFError_record bad_element; UDFError_record bad_element]
             [("X", hello_datum); ("second", hello_datum)]).
Proof. reflexivity. Qed.

(** * Further properties of the handlers *)

Section MapFnCases.
Context `{Runtime}.

(** [MapFn], case by case: the first conversion that raises, else the
    handler, decides. *)
Lemma MapFn_cases (self : UserDefinedFunctionServicer)
    (request : udfunction_pb2.Datum.t) (s : RpcState) :
  MapFn self request s
  = match ToDatetime (udfunction_pb2.Datum.event_time request) with
    | Raise err => contained err s
    | Return event_time =>
        match ToDatetime (udfunction_pb2.Datum.watermark request) with
        | Raise err => contained err s
        | Return watermark =>
            let key := datum_key (invocation_metadata (context s)) in
            let datum := datum_of request event_time watermark in
            match __map_handler self key datum with
            | Return msgs =>
                (Return (udfunction_pb2.DatumList.mk
                           (to_datums (Messages.items msgs))),
                 called s key datum)
            | Raise err => contained err (called s key datum)
            end
        end
    end.
Proof.
  unfold MapFn, mbind, Py_bind, context_invocation_metadata,
    try_except_Exception, eval, call_map_handler, _LOGGER_critical, emit,
    mret, Py_ret, contained, drop_response, logged, called, datum_of.
  destruct (ToDatetime (udfunction_pb2.Datum.event_time request))
    as [event_time|err]; simpl.
  - destruct (ToDatetime (udfunction_pb2.Datum.watermark request))
      as [watermark|err]; simpl.
    + destruct (__map_handler self _ _) as [msgs|err]; simpl; [done|].
      by destruct (isinstance err Exception).
    + by destruct (isinstance err Exception).
  - by destruct (isinstance err Exception).
Qed.

(** X1: when the conversion of the event time or of the watermark raises
    an exception of class [Exception], the handler is not called: [MapFn]
    returns the drop response and logs the conversion error, once. *)
Theorem MapFn_drops_on_bad_timestamp (self : UserDefinedFunctionServicer)
    (request : udfunction_pb2.Datum.t) (s : RpcState) (err : PyExc) :
  ToDatetime (udfunction_pb2.Datum.event_time request) = Raise err
  ∨ (∃ event_time,
       ToDatetime (udfunction_pb2.Datum.event_time request)
       = Return event_time
       ∧ ToDatetime (udfunction_pb2.Datum.watermark request) = Raise err) →
  isinstance err Exception = true →
  ∃ s' : RpcState,
    MapFn self request s = (Return drop_response, s')
    ∧ handler_calls s' = handler_calls s
    ∧ _LOGGER s' = _LOGGER s ++ [UDFError_record err]
    ∧ context s' = context s.
Proof.
  intros Hconv Hexc. rewrite MapFn_cases.
  destruct Hconv as [-> | (event_time & -> & ->)];
    unfold contained; rewrite Hexc; by eexists.
Qed.


(** X3: however it ends, [MapFn] leaves the call context (metadata, status
    code, details) and the request stream as it found them. *)
Theorem MapFn_keeps_context (self : UserDefinedFunctionServicer)
    (request : udfunction_pb2.Datum.t) (s : RpcState) :
  context (MapFn self request s).2 = context s
  ∧ request_iterator (MapFn self request s).2 = request_iterator s.
Proof.
  rewrite MapFn_cases. unfold contained.
  repeat match goal with
         | |- context [match ?x with _ => _ end] => destruct x
         | |- context [if ?b then _ else _] => destruct b
         end; simpl; done.
Qed.

(** X4: [MapFn] logs nothing, or it logs one record, and then it returns
    the drop response: the record carries an exception of class
    [Exception] that a conversion or the handler raised. *)
Theorem MapFn_logs_only_drops (self : UserDefinedFunctionServicer)
    (request : udfunction_pb2.Datum.t) (s : RpcState) :
  _LOGGER (MapFn self request s).2 = _LOGGER s
  ∨ ∃ err : PyExc,
      isinstance err Exception = true
      ∧ _LOGGER (MapFn self request s).2 = _LOGGER s ++ [UDFError_record err]
      ∧ (MapFn self request s).1 = Return drop_response.
Proof.
  rewrite MapFn_cases. unfold contained.
  destruct (ToDatetime (udfunction_pb2.Datum.event_time request))
    as [event_time|e1].
  - destruct (ToDatetime (udfunction_pb2.Datum.watermark request))
      as [watermark|e2].
    + simpl. destruct (__map_handler self _ _) as [msgs|e3]; [by left|].
      destruct (isinstance e3 Exception) eqn:Hexc; [right|by left].
      by exists e3.
    + destruct (isinstance e2 Exception) eqn:Hexc; [right|by left].
      by exists e2.
  - destruct (isinstance e1 Exception) eqn:Hexc; [right|by left].
    by exists e1.
Qed.

(** X5: [MapFn] calls the handler at most once.  It calls it exactly when
    both timestamps convert, and then with the key of the metadata loop,
    the value of the request as it is, and the two converted times. *)
Theorem MapFn_calls_handler_at_most_once (self : UserDefinedFunctionServicer)
    (request : udfunction_pb2.Datum.t) (s : RpcState) :
  (handler_calls (MapFn self request s).2 = handler_calls s
   ∧ ∃ err,
       ToDatetime (udfunction_pb2.Datum.event_time request) = Raise err
       ∨ ToDatetime (udfunction_pb2.Datum.watermark request) = Raise err)
  ∨ ∃ event_time watermark,
      ToDatetime (udfunction_pb2.Datum.event_time request)
      = Return event_time
      ∧ ToDatetime (udfunction_pb2.Datum.watermark request)
        = Return watermark
      ∧ handler_calls (MapFn self request s).2
        = handler_calls s
          ++ [(datum_key (invocation_metadata (context s)),
               Datum.mk (udfunction_pb2.Datum.value request)
                        event_time watermark)].
Proof.
  rewrite MapFn_cases. unfold contained.
  destruct (ToDatetime (udfunction_pb2.Datum.event_time request))
    as [event_time|e1].
  - destruct (ToDatetime (udfunction_pb2.Datum.watermark request))
      as [watermark|e2].
    + right. exists event_time, watermark. repeat split. simpl.
      destruct (__map_handler self _ _) as [msgs|e3]; [done|].
      by destruct (isinstance e3 Exception).
    + left. split; [by destruct (isinstance e2 Exception)|].
      exists e2. by right.
  - left. split; [by destruct (isinstance e1 Exception)|].
    exists e1. by left.
Qed.

(** X6: no element of a response carries an event time or a watermark:
    both fields are left unset, whatever the request held. *)
Theorem MapFn_response_without_times (self : UserDefinedFunctionServicer)
    (request : udfunction_pb2.Datum.t) (s s' : RpcState)
    (response : udfunction_pb2.DatumList.t) :
  MapFn self request s = (Return response, s') →
  Forall (λ datum,
            udfunction_pb2.Datum.event_time datum = mkTimestamp 0 0
            ∧ udfunction_pb2.Datum.watermark datum = mkTimestamp 0 0)
         (udfunction_pb2.DatumList.elements response).
Proof.
  assert (Hall : ∀ msgs, Forall (λ datum,
            udfunction_pb2.Datum.event_time datum = mkTimestamp 0 0
            ∧ udfunction_pb2.Datum.watermark datum = mkTimestamp 0 0)
            (to_datums msgs)).
  { intros msgs. rewrite to_datums_fmap. apply Forall_fmap.
    by apply Forall_forall. }
  rewrite MapFn_cases. unfold contained, drop_response.
  repeat match goal with
         | |- context [match ?x with _ => _ end] => destruct x
         | |- context [if ?b then _ else _] => destruct b
         end; simpl; intros [= <- <-] || done; apply Hall.
Qed.

(** A [Map] call depends on the servicer through its handler alone. *)
Lemma MapFn_of_handler (self1 self2 : UserDefinedFunctionServicer)
    (request : udfunction_pb2.Datum.t) (s : RpcState) :
  __map_handler self1 = __map_handler self2 →
  MapFn self1 request s = MapFn self2 request s.
Proof. intros Hh. rewrite !MapFn_cases. by rewrite Hh. Qed.

End MapFnCases.

(** ** The metadata loop and the response loop *)

Section Loops.
Context `{Runtime}.

Lemma routing_values_app (md1 md2 : list (string * string)) :
  routing_values (md1 ++ md2) = routing_values md1 ++ routing_values md2.
Proof. unfold routing_values. by rewrite filter_app, fmap_app. Qed.

(** X7: over metadata in two parts, the key is that of the second part
    when the second part holds an entry under the routing-key name, and
    that of the first part otherwise. *)
Theorem datum_key_app (md1 md2 : list (string * string)) :
  datum_key (md1 ++ md2)
  = if decide (routing_values md2 = []) then datum_key md1
    else datum_key md2.
Proof.
  rewrite !datum_key_last, routing_values_app.
  destruct (decide (routing_values md2 = [])) as [->|Hne].
  - by rewrite app_nil_r.
  - destruct (routing_values md2) as [|v vs] using rev_ind; [done|].
    by rewrite app_assoc, !last_snoc.
Qed.

(** X8: the key depends on the entries under the routing-key name alone,
    and it is the empty string or the value of one of them; an entry
    under the name with the empty value reads as no entry. *)
Theorem datum_key_of_entries (metadata : list (string * string)) :
  datum_key metadata
  = datum_key (filter (λ entry, entry.1 = DATUM_KEY) metadata)
  ∧ (datum_key metadata = "" ∨ (DATUM_KEY, datum_key metadata) ∈ metadata)
  ∧ datum_key (metadata ++ [(DATUM_KEY, "")]) = datum_key [].
Proof.
  repeat split.
  - rewrite !datum_key_last. unfold routing_values.
    by rewrite list_filter_filter_l.
  - rewrite datum_key_last.
    destruct (last (routing_values metadata)) as [v|] eqn:Hlast; simpl.
    + right. apply last_Some_elem_of in Hlast.
      unfold routing_values in Hlast.
      apply list_elem_of_fmap in Hlast as ([k v'] & -> & Hin).
      apply list_elem_of_filter in Hin as [Hk Hin]. simpl in *. by subst k.
    + by left.
  - rewrite datum_key_snoc. by rewrite decide_True.
Qed.

(** X9: the response loop loses nothing: message lists with the same
    datums are the same list, and the datums of a list in two parts are
    those of the parts, in order. *)
Theorem to_datums_lossless (msgs1 msgs2 : list Message.t) :
  (to_datums msgs1 = to_datums msgs2 → msgs1 = msgs2)
  ∧ to_datums (msgs1 ++ msgs2) = to_datums msgs1 ++ to_datums msgs2.
Proof.
  rewrite !to_datums_fmap. split.
  - revert msgs2. induction msgs1 as [|[k v] msgs1 IH];
      intros [|[k' v'] msgs2] Heq; simpl in Heq; try done.
    injection Heq as -> -> Heq. f_equal. by apply IH.
  - by rewrite fmap_app.
Qed.

End Loops.

(** ** Calls one after the other *)

Section Sequences.
Context `{Runtime}.

(** What one [MapFn] call adds to the logger and to the handler trace. *)
Lemma MapFn_growth (self : UserDefinedFunctionServicer)
    (request : udfunction_pb2.Datum.t) (s : RpcState) :
  ∃ (emitted : list LogRecord) (calls : list (string * Datum.t)),
    _LOGGER (MapFn self request s).2 = _LOGGER s ++ emitted
    ∧ handler_calls (MapFn self request s).2 = handler_calls s ++ calls
    ∧ Forall (λ r, levelname r = CRITICAL) emitted
    ∧ (length emitted ≤ 1)%nat
    ∧ (length calls ≤ 1)%nat.
Proof.
  rewrite MapFn_cases. unfold contained.
  repeat match goal with
         | |- context [match ?x with _ => _ end] => destruct x
         | |- context [if ?b then _ else _] => destruct b
         end; simpl;
    first
      [ by exists [], []; rewrite !app_nil_r; repeat split; auto
      | by eexists [_], []; rewrite !app_nil_r; repeat split; auto
      | by eexists [], [_]; rewrite !app_nil_r; repeat split; auto
      | by eexists [_], [_]; repeat split; auto ].
Qed.

Lemma serve_rpc_growth (self : UserDefinedFunctionServicer) (s : RpcState)
    (rpc : Rpc) :
  ∃ (emitted : list LogRecord) (calls : list (string * Datum.t)),
    _LOGGER (serve_rpc self s rpc) = _LOGGER s ++ emitted
    ∧ handler_calls (serve_rpc self s rpc) = handler_calls s ++ calls
    ∧ Forall (λ r, levelname r = CRITICAL) emitted
    ∧ (length emitted ≤ map_rpcs [rpc])%nat
    ∧ (length calls ≤ map_rpcs [rpc])%nat.
Proof.
  destruct rpc as [request ctx|stream ctx|ctx].
  - apply (MapFn_growth self request (begin_call ctx [] s)).
  - exists [], []. simpl. by rewrite !app_nil_r.
  - exists [], []. simpl. by rewrite !app_nil_r.
Qed.

Lemma map_rpcs_cons (rpc : Rpc) (rpcs : list Rpc) :
  map_rpcs (rpc :: rpcs) = (map_rpcs [rpc] + map_rpcs rpcs)%nat.
Proof.
  unfold map_rpcs. rewrite !filter_cons, filter_nil.
  by destruct (decide (is_MapRpc rpc = true)).
Qed.

(** X10: over any sequence of calls, the logger and the handler trace
    only grow; what the logger gains are CRITICAL records, at most one per
    [Map] call, and the handler is called at most once per [Map] call.
    [Reduce] and [IsReady] calls add nothing. *)
Theorem serve_rpcs_growth (self : UserDefinedFunctionServicer)
    (rpcs : list Rpc) (s : RpcState) :
  ∃ (emitted : list LogRecord) (calls : list (string * Datum.t)),
    _LOGGER (serve_rpcs self s rpcs) = _LOGGER s ++ emitted
    ∧ handler_calls (serve_rpcs self s rpcs) = handler_calls s ++ calls
    ∧ Forall (λ r, levelname r = CRITICAL) emitted
    ∧ (length emitted ≤ map_rpcs rpcs)%nat
    ∧ (length calls ≤ map_rpcs rpcs)%nat.
Proof.
  revert s. induction rpcs as [|rpc rpcs IH]; intros s.
  - exists [], []. simpl. by rewrite !app_nil_r.
  - destruct (serve_rpc_growth self s rpc)
      as (emitted1 & calls1 & Hl1 & Hc1 & Hcrit1 & Hn1 & Hm1).
    destruct (IH (serve_rpc self s rpc))
      as (emitted2 & calls2 & Hl2 & Hc2 & Hcrit2 & Hn2 & Hm2).
    exists (emitted1 ++ emitted2), (calls1 ++ calls2).
    unfold serve_rpcs in *. simpl.
    rewrite Hl2, Hc2, Hl1, Hc1, <- !app_assoc, !length_app, map_rpcs_cons.
    repeat split; [by apply Forall_app|lia|lia].
Qed.

End Sequences.

(** * Properties of the server lifecycle *)

Section Lifecycle.
Context `{Runtime}.

(** X11: the servicer [__serve] registers is not [self] but a new one,
    built from the handler of [self] with the default socket path and
    message size and without cleanup coroutine; it answers every [Map]
    call as [self] would.  The server listens on one address, the path
    given to [__init__] behind "unix://". *)
Theorem serve_registers_copy (map_handler : UDFMapCallable) (path : string)
    (max_message_size : Z) (log : list LogRecord) :
  ∃ registered : UserDefinedFunctionServicer,
    servicers (__serve (__init__ map_handler path max_message_size) log).1.1
    = [registered]
    ∧ sock_path registered = ("unix://" ++ FUNCTION_SOCK_PATH)%string
    ∧ _max_message_size registered = MAX_MESSAGE_SIZE
    ∧ _cleanup_coroutines registered = []
    ∧ (∀ request s,
         MapFn registered request s
         = MapFn (__init__ map_handler path max_message_size) request s)
    ∧ insecure_ports
        (__serve (__init__ map_handler path max_message_size) log).1.1
      = [("unix://" ++ path)%string].
Proof.
  eexists. split; [reflexivity|]. split; [done|]. split; [done|].
  split; [done|]. split; [|done].
  intros request s. by apply MapFn_of_handler.
Qed.

(** The coroutine [__serve] when no call of lines 116-127 raises: it does
    what [__serve] does, then ends as the wait ends. *)
Lemma serve_coroutine_started (run : GrpcRun) (p : Process) :
  startup_failure run = None →
  __serve_coroutine run p
  = (outcome_of (wait_for_termination_raises run),
     mkProcess (__serve (servicer p) (module_logger p)).1.2
               (Some (__serve (servicer p) (module_logger p)).1.1)
               (__serve (servicer p) (module_logger p)).2
               (root_logger p) (stop_calls p) (loop_closed p)).
Proof.
  destruct run as [[e1|] [e2|] [e3|] [e4|] wait stop]; try done.
  intros _. by destruct wait.
Qed.

(** The coroutine [__serve] when a call of lines 116-127 raises: line 136
    is not reached. *)
Lemma serve_coroutine_failed (run : GrpcRun) (p : Process) (err : PyExc) :
  startup_failure run = Some err →
  ∃ p' : Process,
    __serve_coroutine run p = (Raise err, p')
    ∧ servicer p' = servicer p
    ∧ stop_calls p' = stop_calls p
    ∧ root_logger p' = root_logger p
    ∧ loop_closed p' = loop_closed p.
Proof.
  destruct run as [[e1|] [e2|] [e3|] [e4|] wait stop]; try done;
    intros [= ->]; by eexists.
Qed.

(** X12: when a call of [__serve] raises before the shutdown coroutine is
    registered (the socket cannot be bound, say), [start] on a servicer
    fresh from [__init__] does not raise that exception but a
    [TypeError]: the cleanup list is empty and line 145 calls
    [run_until_complete] without argument.  The server is not stopped and
    the loop is left open. *)
Theorem start_masks_startup_failure (run : GrpcRun) (p : Process)
    (err : PyExc) :
  loop_closed p = false →
  _cleanup_coroutines (servicer p) = [] →
  startup_failure run = Some err →
  ∃ (e : PyExc) (p' : Process),
    start run p = (Raise e, p')
    ∧ exc_type e = TypeError
    ∧ stop_calls p' = stop_calls p
    ∧ loop_closed p' = false.
Proof.
  intros Hopen Hnil Hfail.
  destruct (serve_coroutine_failed run p err Hfail)
    as (p1 & Hrun & Hself & Hstops & _ & Hloop).
  unfold start, try_finally, run_until_complete. rewrite Hopen, Hrun.
  unfold mbind, Proc_bind, run_until_complete_cleanup.
  rewrite Hself, Hnil. do 2 eexists. repeat split; [done|congruence].
Qed.

(** X13: when the server starts, [start] on a servicer fresh from
    [__init__] ends as the wait for termination ends (it returns, or it
    raises what ended the wait), after the cleanup: exactly one
    [server.stop], with grace 5, one record on the root logger, and the
    loop closed. *)
Theorem start_shuts_down_once (run : GrpcRun) (p : Process) :
  loop_closed p = false →
  _cleanup_coroutines (servicer p) = [] →
  startup_failure run = None →
  stop_raises run = None →
  ∃ p' : Process,
    start run p = (outcome_of (wait_for_termination_raises run), p')
    ∧ server p' = Some (__serve (servicer p) (module_logger p)).1.1
    ∧ module_logger p' = (__serve (servicer p) (module_logger p)).2
    ∧ root_logger p'
      = root_logger p
        ++ [mkLogRecord INFO "Starting graceful shutdown..." [] false]
    ∧ stop_calls p' = stop_calls p ++ [5]
    ∧ _cleanup_coroutines (servicer p') = [server_graceful_shutdown 5]
    ∧ loop_closed p' = true.
Proof.
  intros Hopen Hnil Hok Hstop.
  unfold start, try_finally, run_until_complete.
  rewrite Hopen, (serve_coroutine_started run p Hok).
  unfold mbind, Proc_bind, run_until_complete_cleanup, run_until_complete,
    run_coroutine, logging_info, server_stop, library_call, loop_close.
  simpl. rewrite Hnil, Hopen, Hstop. simpl.
  eexists. by repeat split.
Qed.

(** X14: when the server starts and [server.stop] raises, [start] raises
    that exception, also when an other exception ended the wait, and the
    loop is left open. *)
Theorem start_stop_failure (run : GrpcRun) (p : Process) (err : PyExc) :
  loop_closed p = false →
  _cleanup_coroutines (servicer p) = [] →
  startup_failure run = None →
  stop_raises run = Some err →
  ∃ p' : Process,
    start run p = (Raise err, p')
    ∧ stop_calls p' = stop_calls p ++ [5]
    ∧ loop_closed p' = false.
Proof.
  intros Hopen Hnil Hok Hstop.
  unfold start, try_finally, run_until_complete.
  rewrite Hopen, (serve_coroutine_started run p Hok).
  unfold mbind, Proc_bind, run_until_complete_cleanup, run_until_complete,
    run_coroutine, logging_info, server_stop, library_call, loop_close.
  simpl. rewrite Hnil, Hopen, Hstop. simpl.
  eexists. by repeat split.
Qed.

(** X15: [start] returns normally in one case only: the loop was open,
    the servicer had no cleanup coroutine, no call of [__serve] raised,
    the wait for termination returned and [server.stop] returned; the
    server was then stopped once, with grace 5, and the loop is closed. *)
Theorem start_returns_after_shutdown (run : GrpcRun) (p p' : Process) :
  start run p = (Return tt, p') →
  loop_closed p = false
  ∧ _cleanup_coroutines (servicer p) = []
  ∧ startup_failure run = None
  ∧ wait_for_termination_raises run = None
  ∧ stop_raises run = None
  ∧ stop_calls p' = stop_calls p ++ [5]
  ∧ loop_closed p' = true.
Proof.
  destruct p as [[handler path size cleanup] srv mlog rlog stops closed].
  destruct run as [[e1|] [e2|] [e3|] [e4|] [e5|] [e6|]];
    destruct closed; destruct cleanup as [|[g1] [|[g2] cleanup]];
    cbn; intros Heq; try discriminate Heq;
    injection Heq as <-; by repeat split.
Qed.

(** X16: on a closed loop, which is how [start] leaves the loop when it
    ends, [start] serves nothing: it raises and changes no object.  With
    the one cleanup coroutine a first [start] registered, it raises the
    [RuntimeError] of the closed loop. *)
Theorem start_on_closed_loop (run : GrpcRun) (p : Process) :
  loop_closed p = true →
  ∃ e : PyExc,
    start run p = (Raise e, p)
    ∧ (exc_type e = RuntimeError ∨ exc_type e = TypeError)
    ∧ (length (_cleanup_coroutines (servicer p)) = 1%nat →
       e = mkExc RuntimeError "Event loop is closed").
Proof.
  intros Hclosed.
  unfold start, try_finally, run_until_complete at 1. rewrite Hclosed.
  unfold mbind, Proc_bind, run_until_complete_cleanup, run_until_complete.
  destruct (_cleanup_coroutines (servicer p)) as [|c [|c' cleanup]];
    rewrite ?Hclosed; eexists; (split; [reflexivity|]); split;
    auto; simpl; intros; done || lia.
Qed.

End Lifecycle.

(** * The further properties at concrete calls *)

(** An event time beyond the year 9999 does not convert: the call is
    dropped and the handler is not called. *)
Lemma MapFn_drops_on_bad_timestamp_witness :
  ∃ s' : RpcState,
    MapFn (H := sample_runtime) (sample_servicer forward_handler)
          late_request (fresh_state one_key)
    = (Return drop_response, s')
    ∧ handler_calls s' = handler_calls (fresh_state one_key)
    ∧ _LOGGER s'
      = _LOGGER (fresh_state one_key)
        ++ [UDFError_record (mkExc OverflowError "date value out of range")]
    ∧ context s' = context (fresh_state one_key).
Proof.
  apply (MapFn_drops_on_bad_timestamp (H := sample_runtime)
           (sample_servicer forward_handler) late_request
           (fresh_state one_key)
           (mkExc OverflowError "date value out of range")).
  - left. reflexivity.
  - reflexivity.
Defined.


Lemma MapFn_response_without_times_witness :
  Forall (λ datum,
            udfunction_pb2.Datum.event_time datum = mkTimestamp 0 0
            ∧ udfunction_pb2.Datum.watermark datum = mkTimestamp 0 0)
         (udfunction_pb2.DatumList.elements
            (udfunction_pb2.DatumList.mk
               [udfunction_pb2.new_Datum "X" hello])).
Proof.
  apply (MapFn_response_without_times (H := sample_runtime)
           (sample_servicer forward_handler) hello_request
           (fresh_state one_key)
           (mkState (context_with one_key) [] [] [("X", hello_datum)])
           (udfunction_pb2.DatumList.mk
              [udfunction_pb2.new_Datum "X" hello])).
  reflexivity.
Defined.

Lemma to_datums_lossless_witness :
  [Message.mk "X" hello] = [Message.mk "X" hello]
  ∧ to_datums ([Message.mk "X" hello] ++ [Message.mk "X" hello])
    = to_datums [Message.mk "X" hello] ++ to_datums [Message.mk "X" hello].
Proof.
  destruct (to_datums_lossless [Message.mk "X" hello] [Message.mk "X" hello])
    as [Hinj Happ].
  split; [apply Hinj; reflexivity | exact Happ].
Defined.

(** The socket cannot be bound: [start] raises a [TypeError]. *)
Lemma start_masks_startup_failure_witness :
  ∃ (e : PyExc) (p' : Process),
    start (H := sample_runtime) failing_bind_run
          (fresh_process (sample_servicer forward_handler))
    = (Raise e, p')
    ∧ exc_type e = TypeError
    ∧ stop_calls p'
      = stop_calls (fresh_process (sample_servicer forward_handler))
    ∧ loop_closed p' = false.
Proof.
  apply (start_masks_startup_failure (H := sample_runtime) failing_bind_run
           (fresh_process (sample_servicer forward_handler)) bind_failure);
    reflexivity.
Defined.

(** An interrupt ends the wait: [start] stops the server, closes the loop
    and raises the interrupt. *)
Lemma start_shuts_down_once_witness :
  ∃ p' : Process,
    start (H := sample_runtime) interrupted_run
          (fresh_process (sample_servicer forward_handler))
    = (outcome_of (wait_for_termination_raises interrupted_run), p')
    ∧ server p'
      = Some (__serve (H := sample_runtime)
                (servicer (fresh_process (sample_servicer forward_handler)))
                (module_logger
                   (fresh_process (sample_servicer forward_handler)))).1.1
    ∧ module_logger p'
      = (__serve (H := sample_runtime)
           (servicer (fresh_process (sample_servicer forward_handler)))
           (module_logger
              (fresh_process (sample_servicer forward_handler)))).2
    ∧ root_logger p'
      = root_logger (fresh_process (sample_servicer forward_handler))
        ++ [mkLogRecord INFO "Starting graceful shutdown..." [] false]
    ∧ stop_calls p'
      = stop_calls (fresh_process (sample_servicer forward_handler)) ++ [5]
    ∧ _cleanup_coroutines (servicer p') = [server_graceful_shutdown 5]
    ∧ loop_closed p' = true.
Proof.
  apply (start_shuts_down_once (H := sample_runtime) interrupted_run
           (fresh_process (sample_servicer forward_handler)));
    reflexivity.
Defined.

Lemma start_stop_failure_witness :
  ∃ p' : Process,
    start (H := sample_runtime) failing_stop_run
          (fresh_process (sample_servicer forward_handler))
    = (Raise (mkExc RuntimeError "stop failed"), p')
    ∧ stop_calls p'
      = stop_calls (fresh_process (sample_servicer forward_handler)) ++ [5]
    ∧ loop_closed p' = false.
Proof.
  apply (start_stop_failure (H := sample_runtime) failing_stop_run
           (fresh_process (sample_servicer forward_handler))
           (mkExc RuntimeError "stop failed")); reflexivity.
Defined.

Lemma start_returns_after_shutdown_witness :
  loop_closed (fresh_process (sample_servicer forward_handler)) = false
  ∧ _cleanup_coroutines
      (servicer (fresh_process (sample_servicer forward_handler))) = []
  ∧ startup_failure quiet_run = None
  ∧ wait_for_termination_raises quiet_run = None
  ∧ stop_raises quiet_run = None
  ∧ stop_calls
      (start (H := sample_runtime) quiet_run
             (fresh_process (sample_servicer forward_handler))).2
    = stop_calls (fresh_process (sample_servicer forward_handler)) ++ [5]
  ∧ loop_closed
      (start (H := sample_runtime) quiet_run
             (fresh_process (sample_servicer forward_handler))).2
    = true.
Proof.
  apply (start_returns_after_shutdown (H := sample_runtime) quiet_run
           (fresh_process (sample_servicer forward_handler))
           (start (H := sample_runtime) quiet_run
                  (fresh_process (sample_servicer forward_handler))).2).
  reflexivity.
Defined.

(** A second [start] after a first one that ended: the loop is closed and
    the second raises its [RuntimeError]. *)
Lemma start_on_closed_loop_witness :
  ∃ e : PyExc,
    start (H := sample_runtime) quiet_run
          (start (H := sample_runtime) quiet_run
                 (fresh_process (sample_servicer forward_handler))).2
    = (Raise e,
       (start (H := sample_runtime) quiet_run
              (fresh_process (sample_servicer forward_handler))).2)
    ∧ (exc_type e = RuntimeError ∨ exc_type e = TypeError)
    ∧ (length
         (_cleanup_coroutines
            (servicer
               (start (H := sample_runtime) quiet_run
                      (fresh_process (sample_servicer forward_handler))).2))
       = 1%nat →
       e = mkExc RuntimeError "Event loop is closed").
Proof.
  apply (start_on_closed_loop (H := sample_runtime) quiet_run
           (start (H := sample_runtime) quiet_run
                  (fresh_process (sample_servicer forward_handler))).2).
  reflexivity.
Defined.
